(** * Deal-Finder: [test-scraper-waits.py]

    A shallow embedding of the script and of the few pieces of the Python
    run time it touches ([print], [str * int], [list.insert], [os.path],
    [asyncio.run]), followed by the properties of its observable behaviour:
    the text written to standard output, the exit status, and the state of
    the interpreter the script leaves behind. *)

From Stdlib Require Import String Ascii List ZArith Lia Bool.
Import ListNotations.
Local Open Scope string_scope.

(* ================================================================== *)
(** ** Python strings and lists *)
(* ================================================================== *)

(** The line feed, Python's ["\n"]. *)
Definition nl : string := String "010"%char EmptyString.

(** [s * n] on [str]: [n] copies of [s], none when [n <= 0]. *)
Fixpoint str_repeat (s : string) (n : nat) : string :=
  match n with
  | O => EmptyString
  | S k => s ++ str_repeat s k
  end.

Definition str_mul (s : string) (n : Z) : string := str_repeat s (Z.to_nat n).

(** [l.insert(i, x)] for [i >= 0]: [x] goes before position [i], or at the
    end when the list is shorter. *)
Definition list_insert {A : Type} (i : nat) (x : A) (l : list A) : list A :=
  firstn i l ++ x :: skipn i l.

(** [s.split("\n")]. *)
Fixpoint split_nl (s : string) : list string :=
  match s with
  | EmptyString => [EmptyString]
  | String c rest =>
      if Ascii.eqb c "010"%char then EmptyString :: split_nl rest
      else match split_nl rest with
           | [] => [String c EmptyString]
           | l :: ls => String c l :: ls
           end
  end.

(** [s.rstrip("\n")]. *)
Fixpoint rstrip_nl (s : string) : string :=
  match s with
  | EmptyString => EmptyString
  | String c rest =>
      match rstrip_nl rest with
      | EmptyString => if Ascii.eqb c "010"%char then EmptyString
                       else String c EmptyString
      | r => String c r
      end
  end.

(* ================================================================== *)
(** ** [os.path] (the POSIX flavour, [posixpath]) *)
(* ================================================================== *)

Module os_path.

Definition sep : ascii := "/"%char.

Definition startswith_sep (s : string) : bool :=
  match s with
  | String c _ => Ascii.eqb c sep
  | EmptyString => false
  end.

Definition endswith_sep (s : string) : bool :=
  match rev (list_ascii_of_string s) with
  | c :: _ => Ascii.eqb c sep
  | [] => false
  end.

(** On the reversed path: what is left of [p[:p.rfind('/') + 1]]. *)
Fixpoint upto_last_sep (r : list ascii) : list ascii :=
  match r with
  | [] => []
  | c :: t => if Ascii.eqb c sep then r else upto_last_sep t
  end.

(** On the reversed head: [head.rstrip('/')]. *)
Fixpoint rstrip_sep (r : list ascii) : list ascii :=
  match r with
  | [] => []
  | c :: t => if Ascii.eqb c sep then rstrip_sep t else r
  end.

(** [os.path.dirname(p)]: the head is cut after the last separator, and its
    trailing separators go unless it consists of separators only. *)
Definition dirname (p : string) : string :=
  let head := upto_last_sep (rev (list_ascii_of_string p)) in
  let head := if forallb (Ascii.eqb sep) head then head else rstrip_sep head in
  string_of_list_ascii (rev head).

(** [os.path.join(a, b)]. *)
Definition join (a b : string) : string :=
  if startswith_sep b then b
  else if String.eqb a EmptyString || endswith_sep a then a ++ b
  else a ++ String sep b.

End os_path.

(* ================================================================== *)
(** ** The interpreter's world *)
(* ================================================================== *)

(** What outlives a process: the files (path and contents) and what was
    sent over the network. *)
Record Machine : Type := {
  files : list (string * string);
  sent : list string
}.

(** The state of one interpreter process.  [imported] lists the modules the
    [import] statements have bound so far, each with the module search path
    that was in force when its statement ran. *)
Record World : Type := {
  host : Machine;
  sys_argv : list string;
  os_environ : list (string * string);
  sys_path : list string;
  imported : list (string * list string);
  running_loop : bool;
  sys_stdout : string
}.

Definition write_stdout (s : string) (w : World) : World :=
  {| host := host w; sys_argv := sys_argv w; os_environ := os_environ w;
     sys_path := sys_path w; imported := imported w;
     running_loop := running_loop w; sys_stdout := sys_stdout w ++ s |}.

Definition set_sys_path (p : list string) (w : World) : World :=
  {| host := host w; sys_argv := sys_argv w; os_environ := os_environ w;
     sys_path := p; imported := imported w;
     running_loop := running_loop w; sys_stdout := sys_stdout w |}.

Definition set_running_loop (b : bool) (w : World) : World :=
  {| host := host w; sys_argv := sys_argv w; os_environ := os_environ w;
     sys_path := sys_path w; imported := imported w;
     running_loop := b; sys_stdout := sys_stdout w |}.

Definition bind_module (name : string) (w : World) : World :=
  {| host := host w; sys_argv := sys_argv w; os_environ := os_environ w;
     sys_path := sys_path w; imported := imported w ++ [(name, sys_path w)];
     running_loop := running_loop w; sys_stdout := sys_stdout w |}.

(* ================================================================== *)
(** ** Statements: procedures and coroutines *)
(* ================================================================== *)

Inductive exn : Type :=
| RuntimeError (msg : string).

Inductive result (A : Type) : Type :=
| Ok (a : A)
| Raised (e : exn).
Arguments Ok {A} a.
Arguments Raised {A} e.

(** An ordinary procedure ([def]): it runs to its end on the world. *)
Definition proc (A : Type) : Type := World -> result A * World.

(** The body of an [async def]: what it does up to its end, with the points
    where it hands control back to the event loop. *)
Inductive coro (A : Type) : Type :=
| Ret (a : A)
| Throw (e : exn)
| Out (s : string) (k : coro A)
| Suspend (k : coro A).
Arguments Ret {A} a.
Arguments Throw {A} e.
Arguments Out {A} s k.
Arguments Suspend {A} k.

Fixpoint coro_bind {A B : Type} (c : coro A) (f : A -> coro B) : coro B :=
  match c with
  | Ret a => f a
  | Throw e => Throw e
  | Out s k => Out s (coro_bind k f)
  | Suspend k => Suspend (coro_bind k f)
  end.

Definition proc_bind {A B : Type} (c : proc A) (f : A -> proc B) : proc B :=
  fun w =>
    match c w with
    | (Ok a, w1) => f a w1
    | (Raised e, w1) => (Raised e, w1)
    end.

(** The statements both kinds of body are written with.  [print(s)] appends
    [s] and a line feed to the standard output stream; a stream the platform
    has closed or broken is not part of this world. *)
Class Stmt (M : Type -> Type) : Type := {
  ret : forall {A : Type}, A -> M A;
  bind : forall {A B : Type}, M A -> (A -> M B) -> M B;
  print : string -> M unit
}.

#[global] Instance Stmt_proc : Stmt proc := {
  ret := fun A a w => (Ok a, w);
  bind := @proc_bind;
  print := fun s w => (Ok tt, write_stdout (s ++ nl) w)
}.

#[global] Instance Stmt_coro : Stmt coro := {
  ret := @Ret;
  bind := @coro_bind;
  print := fun s => Out (s ++ nl) (Ret tt)
}.

Notation "c ;; k" := (bind c (fun _ => k))
  (at level 61, right associativity).

(* ================================================================== *)
(** ** [asyncio] *)
(* ================================================================== *)

Inductive step_result (A : Type) : Type :=
| Finished (r : result A)
| Suspended (k : coro A).
Arguments Finished {A} r.
Arguments Suspended {A} k.

(** One step of the task that wraps a coroutine ([coro.send(None)]): the
    body runs up to its next suspension point or to its end. *)
Fixpoint send {A : Type} (c : coro A) (w : World) : step_result A * World :=
  match c with
  | Ret a => (Finished (Ok a), w)
  | Throw e => (Finished (Raised e), w)
  | Out s k => send k (write_stdout s w)
  | Suspend k => (Suspended k, w)
  end.

(** [loop.run_until_complete(main)] with no other task scheduled: the loop
    resumes the task after each suspension until the body has ended. *)
Fixpoint run_until_complete {A : Type} (c : coro A) (w : World)
  : result A * World :=
  match c with
  | Ret a => (Ok a, w)
  | Throw e => (Raised e, w)
  | Out s k => run_until_complete k (write_stdout s w)
  | Suspend k => run_until_complete k w
  end.

(** The number of suspension points ([await]s that yield) of a body. *)
Fixpoint awaits {A : Type} (c : coro A) : nat :=
  match c with
  | Ret _ | Throw _ => 0
  | Out _ k => awaits k
  | Suspend k => S (awaits k)
  end.

(** Whether the body ends in a raised exception. *)
Fixpoint raises {A : Type} (c : coro A) : bool :=
  match c with
  | Ret _ => false
  | Throw _ => true
  | Out _ k | Suspend k => raises k
  end.

(** The text a body writes. *)
Fixpoint written {A : Type} (c : coro A) : string :=
  match c with
  | Ret _ | Throw _ => EmptyString
  | Out s k => s ++ written k
  | Suspend k => written k
  end.

(** [asyncio.run(main)]: refused inside a running loop; otherwise a fresh
    loop runs [main] to completion and is closed again. *)
Definition asyncio_run {A : Type} (main : coro A) : proc A :=
  fun w =>
    if running_loop w then
      (Raised (RuntimeError
                 "asyncio.run() cannot be called from a running event loop"),
       w)
    else
      let '(r, w1) := run_until_complete main (set_running_loop true w) in
      (r, set_running_loop false w1).

(* ================================================================== *)
(** ** The script *)
(* ================================================================== *)

Definition import_ (name : string) : proc unit :=
  fun w => (Ok tt, bind_module name w).

Definition sys_path_insert (i : nat) (entry : string) : proc unit :=
  fun w => (Ok tt, set_sys_path (list_insert i entry (sys_path w)) w).

(** [async def test_scraper_timing()]. *)
Definition test_scraper_timing : coro unit :=
  print ("Testing Scraper Wait Times" ++ nl) ;;
  print (str_mul "=" 60) ;;

  print (nl ++ "OLD Wait Strategy:") ;;
  print "  - Initial wait: 1000ms" ;;
  print "  - Scroll (2 steps @ 400ms): 800ms" ;;
  print "  - Network wait: 800ms" ;;
  print "  - Total: ~2.6 seconds" ;;

  print (nl ++ "NEW Wait Strategy:") ;;
  print "  - Initial wait: 2000ms" ;;
  print "  - Scroll (4 steps @ 800ms): 3200ms" ;;
  print "  - Network wait: 2000ms" ;;
  print "  - Total: ~7.2 seconds" ;;

  print (nl ++ "Improvement:") ;;
  print "  - 2.8x longer wait time" ;;
  print "  - More scrolling to trigger lazy-loaded content" ;;
  print "  - Better chance addresses will render before scraping" ;;

  print (nl ++ str_mul "=" 60) ;;
  print (nl ++ "Configuration updated successfully!") ;;
  print (nl ++ "To test with real data, run your scraper against") ;;
  print "   the address validation page and check if addresses" ;;
  print ("   are now being returned." ++ nl).

(** The module body, top to bottom, run with the given [__name__] and
    [__file__]. *)
Definition script (__name__ __file__ : string) : proc unit :=
  import_ "asyncio" ;;
  import_ "sys" ;;
  import_ "os" ;;
  sys_path_insert 0 (os_path.join (os_path.dirname __file__) "backend") ;;
  if String.eqb __name__ "__main__" then asyncio_run test_scraper_timing
  else ret tt.

(* ================================================================== *)
(** ** Running the script as a program *)
(* ================================================================== *)

(** How the program is started: the script's path as given to the
    interpreter ([sys.argv[0]]), the value the interpreter gives [__file__]
    in the module it runs as [__main__] (that path as given, or made
    absolute: CPython does the latter from 3.9 on), the extra arguments, the
    environment, and the module search path the interpreter starts with. *)
Record Invocation : Type := {
  script_path : string;
  main_file : string;
  args : list string;
  environ : list (string * string);
  search_path : list string
}.

Definition boot (m : Machine) (inv : Invocation) : World :=
  {| host := m;
     sys_argv := script_path inv :: args inv;
     os_environ := environ inv;
     sys_path := search_path inv;
     imported := [];
     running_loop := false;
     sys_stdout := EmptyString |}.

(** The interpreter exits with 0 when the module body ends, with 1 on an
    exception nobody caught. *)
Definition exit_code {A : Type} (r : result A) : Z :=
  match r with
  | Ok _ => 0
  | Raised _ => 1
  end.

Record Outcome : Type := {
  stdout : string;
  exit_status : Z
}.

Definition observe {A : Type} (rw : result A * World) : Outcome :=
  {| stdout := sys_stdout (snd rw); exit_status := exit_code (fst rw) |}.

Definition main (inv : Invocation) : proc unit :=
  script "__main__" (main_file inv).

(** The entry the script puts on the search path when started as [inv]:
    line 11 applied to the [__file__] of that start. *)
Definition backend_entry (inv : Invocation) : string :=
  os_path.join (os_path.dirname (main_file inv)) "backend".

Definition final_world (m : Machine) (inv : Invocation) : World :=
  snd (main inv (boot m inv)).

Definition run_process (m : Machine) (inv : Invocation) : Outcome * Machine :=
  let rw := main inv (boot m inv) in (observe rw, host (snd rw)).

(** Two runs one after the other on the same machine. *)
Definition run_twice (m : Machine) (first second : Invocation)
  : Outcome * Outcome :=
  let '(o1, m1) := run_process m first in
  let '(o2, _) := run_process m1 second in
  (o1, o2).

(** A concrete start of the program, for evaluating the definitions. *)
Definition example_machine : Machine :=
  {| files := [("/srv/deal-finder/test-scraper-waits.py",
                "#!/usr/bin/env python3")];
     sent := [] |}.

Definition example_invocation : Invocation :=
  {| script_path := "test-scraper-waits.py";
     main_file := "/srv/deal-finder/test-scraper-waits.py";
     args := [];
     environ := [("HOME", "/root")];
     search_path := ["/srv/deal-finder"; "/usr/lib/python3.11"] |}.

(* ================================================================== *)
(** ** The specification's side *)
(* ================================================================== *)

(** The text block of the specification's section 6, line by line. *)
Definition section6_lines : list string :=
  [ "Testing Scraper Wait Times";
    EmptyString;
    "============================================================";
    EmptyString;
    "OLD Wait Strategy:";
    "  - Initial wait: 1000ms";
    "  - Scroll (2 steps @ 400ms): 800ms";
    "  - Network wait: 800ms";
    "  - Total: ~2.6 seconds";
    EmptyString;
    "NEW Wait Strategy:";
    "  - Initial wait: 2000ms";
    "  - Scroll (4 steps @ 800ms): 3200ms";
    "  - Network wait: 2000ms";
    "  - Total: ~7.2 seconds";
    EmptyString;
    "Improvement:";
    "  - 2.8x longer wait time";
    "  - More scrolling to trigger lazy-loaded content";
    "  - Better chance addresses will render before scraping";
    EmptyString;
    "============================================================";
    EmptyString;
    "Configuration updated successfully!";
    EmptyString;
    "To test with real data, run your scraper against";
    "   the address validation page and check if addresses";
    "   are now being returned." ].

Definition section6_text : string := String.concat nl section6_lines.

(** The specification's variant without the asynchronous wrapper: the same
    prints as the body of an ordinary [def], called directly. *)
Definition test_scraper_timing_sync : proc unit :=
  print ("Testing Scraper Wait Times" ++ nl) ;;
  print (str_mul "=" 60) ;;
  print (nl ++ "OLD Wait Strategy:") ;;
  print "  - Initial wait: 1000ms" ;;
  print "  - Scroll (2 steps @ 400ms): 800ms" ;;
  print "  - Network wait: 800ms" ;;
  print "  - Total: ~2.6 seconds" ;;
  print (nl ++ "NEW Wait Strategy:") ;;
  print "  - Initial wait: 2000ms" ;;
  print "  - Scroll (4 steps @ 800ms): 3200ms" ;;
  print "  - Network wait: 2000ms" ;;
  print "  - Total: ~7.2 seconds" ;;
  print (nl ++ "Improvement:") ;;
  print "  - 2.8x longer wait time" ;;
  print "  - More scrolling to trigger lazy-loaded content" ;;
  print "  - Better chance addresses will render before scraping" ;;
  print (nl ++ str_mul "=" 60) ;;
  print (nl ++ "Configuration updated successfully!") ;;
  print (nl ++ "To test with real data, run your scraper against") ;;
  print "   the address validation page and check if addresses" ;;
  print ("   are now being returned." ++ nl).

Definition script_sync (__name__ __file__ : string) : proc unit :=
  import_ "asyncio" ;;
  import_ "sys" ;;
  import_ "os" ;;
  sys_path_insert 0 (os_path.join (os_path.dirname __file__) "backend") ;;
  if String.eqb __name__ "__main__" then test_scraper_timing_sync
  else ret tt.

Definition main_sync (inv : Invocation) : proc unit :=
  script_sync "__main__" (main_file inv).

(** The world just before [asyncio.run]: three imports, then the insert. *)
Definition prepared (w : World) (entry : string) : World :=
  set_sys_path (list_insert 0 entry (sys_path w))
    (bind_module "os" (bind_module "sys" (bind_module "asyncio" w))).

(** The specification's variant with the path manipulation removed. *)
Definition script_without_backend (__name__ __file__ : string) : proc unit :=
  import_ "asyncio" ;;
  import_ "sys" ;;
  import_ "os" ;;
  if String.eqb __name__ "__main__" then asyncio_run test_scraper_timing
  else ret tt.

Definition main_without_backend (inv : Invocation) : proc unit :=
  script_without_backend "__main__" (main_file inv).

(** What the script does once the search path has been extended. *)
Definition after_path_insert (__name__ : string) : proc unit :=
  if String.eqb __name__ "__main__" then asyncio_run test_scraper_timing
  else ret tt.

(** The reading of "the only side effect is writing to standard output":
    between the start and the end of the process neither the machine nor the
    interpreter's own state has moved. *)
Definition process_state_unchanged (w w' : World) : Prop :=
  sys_argv w' = sys_argv w /\
  os_environ w' = os_environ w /\
  sys_path w' = sys_path w /\
  running_loop w' = running_loop w.

Definition only_stdout_written (w w' : World) : Prop :=
  host w' = host w /\ process_state_unchanged w w'.

(** *** Reading the output back *)

Definition has_equals_sign (line : string) : bool :=
  existsb (Ascii.eqb "="%char) (list_ascii_of_string line).

(** The separator lines of an output: its lines that hold a [=]. *)
Definition separator_lines (out : string) : list string :=
  filter has_equals_sign (split_nl out).

Definition all_equals_signs (line : string) : bool :=
  forallb (Ascii.eqb "="%char) (list_ascii_of_string line).

Definition digit_of (c : ascii) : option Z :=
  let n := Z.of_nat (nat_of_ascii c) in
  if ((48 <=? n) && (n <=? 57))%Z then Some (n - 48)%Z else None.

(** The decimal numbers of a line, left to right: its maximal runs of
    digits. *)
Fixpoint numbers_from (s : string) (acc : option Z) : list Z :=
  match s with
  | EmptyString =>
      match acc with
      | Some n => [n]
      | None => []
      end
  | String c rest =>
      match digit_of c, acc with
      | Some d, Some n => numbers_from rest (Some (10 * n + d)%Z)
      | Some d, None => numbers_from rest (Some d)
      | None, Some n => n :: numbers_from rest None
      | None, None => numbers_from rest None
      end
  end.

Definition numbers (s : string) : list Z := numbers_from s None.

(** The lines that follow the first line equal to [header]. *)
Fixpoint lines_after (header : string) (ls : list string) : list string :=
  match ls with
  | [] => []
  | l :: rest => if String.eqb l header then rest else lines_after header rest
  end.

(** The figures of one wait strategy as its four bullet lines print them:
    milliseconds, and the total in tenths of a second. *)
Record Figures : Type := {
  initial_ms : Z;
  scroll_steps : Z;
  step_ms : Z;
  scroll_ms : Z;
  network_ms : Z;
  total_tenths : Z
}.

Definition read_figures (bullets : list string) : option Figures :=
  match map numbers bullets with
  | [[i]; [n; per; sc]; [nw]; [units; tenths]] =>
      Some {| initial_ms := i; scroll_steps := n; step_ms := per;
              scroll_ms := sc; network_ms := nw;
              total_tenths := (10 * units + tenths)%Z |}
  | _ => None
  end.

Definition strategy_figures (header : string) (out : string) : option Figures :=
  read_figures (firstn 4 (lines_after header (split_nl out))).

(** The printed ratio, in tenths. *)
Definition printed_ratio (out : string) : option Z :=
  match map numbers (firstn 1 (lines_after "Improvement:" (split_nl out))) with
  | [[units; tenths]] => Some (10 * units + tenths)%Z
  | _ => None
  end.

(** The itemized waits summed up: the initial wait, the scroll steps and the
    network wait. *)
Definition itemized_ms (f : Figures) : Z :=
  (initial_ms f + scroll_steps f * step_ms f + network_ms f)%Z.

(** [a / b] rounded to one decimal place (half up), in tenths. *)
Definition ratio_tenths (a b : Z) : Z := ((2 * 10 * a + b) / (2 * b))%Z.

(** *** The module run under other conditions *)

(** The entry line 11 computes from [__file__]. *)
Definition backend_dir (__file__ : string) : string :=
  os_path.join (os_path.dirname __file__) "backend".

(** A module body executed [n] times over in one interpreter. *)
Fixpoint rerun (n : nat) (p : proc unit) : proc unit :=
  match n with
  | O => ret tt
  | S k => p ;; rerun k p
  end.

Definition has_sep (p : string) : bool :=
  existsb (fun c => Ascii.eqb c os_path.sep) (list_ascii_of_string p).

Definition is_ascii (s : string) : bool :=
  forallb (fun c => Nat.ltb (nat_of_ascii c) 128) (list_ascii_of_string s).

Definition widest_line (out : string) : nat :=
  fold_right Nat.max 0 (map String.length (split_nl out)).

(* ================================================================== *)
(** ** The event loop on an arbitrary coroutine *)
(* ================================================================== *)

Lemma write_stdout_nothing (w : World) : write_stdout EmptyString w = w.
Proof.
  destruct w as [h av en sp im rl out]; unfold write_stdout; simpl.
  f_equal. induction out as [|c out IH]; simpl; [reflexivity | now rewrite IH].
Qed.

Lemma append_associative (s t u : string) : (s ++ t) ++ u = s ++ t ++ u.
Proof.
  induction s as [|c s IH]; simpl; [reflexivity | now rewrite IH].
Qed.

Lemma write_stdout_twice (s t : string) (w : World) :
  write_stdout t (write_stdout s w) = write_stdout (s ++ t) w.
Proof.
  unfold write_stdout; simpl. now rewrite append_associative.
Qed.

Section EventLoop.

Context {A : Type}.
Implicit Type c : coro A.

(** Running a body changes the world by the text it writes, nothing else. *)
Lemma run_until_complete_world c :
  forall w, snd (run_until_complete c w) = write_stdout (written c) w.
Proof.
  induction c as [a | e | s k IH | k IH]; intros w; simpl.
  - now rewrite write_stdout_nothing.
  - now rewrite write_stdout_nothing.
  - rewrite IH. apply write_stdout_twice.
  - apply IH.
Qed.

(** How a body ends does not depend on the world it runs in. *)
Lemma run_until_complete_result c :
  forall w w', fst (run_until_complete c w) = fst (run_until_complete c w').
Proof.
  induction c as [a | e | s k IH | k IH]; intros w w'; simpl; auto.
Qed.

Lemma run_until_complete_ok c :
  raises c = false -> forall w, exists a, fst (run_until_complete c w) = Ok a.
Proof.
  induction c as [a | e | s k IH | k IH]; simpl; intros Hr w.
  - now exists a.
  - discriminate.
  - now apply IH.
  - now apply IH.
Qed.

(** The loop, step by step: the task is resumed until it has finished. *)
Lemma run_until_complete_steps c w :
  run_until_complete c w =
  match send c w with
  | (Finished r, w1) => (r, w1)
  | (Suspended k, w1) => run_until_complete k w1
  end.
Proof.
  revert w; induction c as [a | e | s k IH | k IH]; intros w; simpl; auto.
Qed.

(** A body with no suspension point is over after the task's first step. *)
Lemma send_without_await c :
  awaits c = 0 ->
  forall w, send c w = (Finished (fst (run_until_complete c w)),
                        snd (run_until_complete c w)).
Proof.
  induction c as [a | e | s k IH | k IH]; simpl; intros Ha w;
    try reflexivity.
  - now apply IH.
  - discriminate.
Qed.

(** [asyncio.run] where no loop is running. *)
Lemma asyncio_run_fresh c w :
  running_loop w = false ->
  asyncio_run c w = (fst (run_until_complete c w), write_stdout (written c) w).
Proof.
  intros Hloop. unfold asyncio_run. rewrite Hloop.
  destruct (run_until_complete c (set_running_loop true w)) as [r w1] eqn:E.
  f_equal.
  - change r with (fst (r, w1)). rewrite <- E. apply run_until_complete_result.
  - change w1 with (snd (r, w1)). rewrite <- E, run_until_complete_world.
    destruct w as [h av en sp im rl out]; simpl in Hloop; subst rl.
    reflexivity.
Qed.

(** [asyncio.run] never looks at the module search path. *)
Lemma asyncio_run_ignores_sys_path c (p : list string) w :
  observe (asyncio_run c (set_sys_path p w)) = observe (asyncio_run c w).
Proof.
  unfold asyncio_run; simpl.
  destruct (running_loop w); [reflexivity|].
  destruct (run_until_complete c (set_running_loop true (set_sys_path p w)))
    as [r1 w1] eqn:E1.
  destruct (run_until_complete c (set_running_loop true w)) as [r2 w2] eqn:E2.
  assert (Hr : r1 = r2).
  { change r1 with (fst (r1, w1)); change r2 with (fst (r2, w2)).
    rewrite <- E1, <- E2. apply run_until_complete_result. }
  assert (Hw : sys_stdout w1 = sys_stdout w2).
  { change w1 with (snd (r1, w1)); change w2 with (snd (r2, w2)).
    rewrite <- E1, <- E2, !run_until_complete_world. reflexivity. }
  unfold observe; simpl. now rewrite Hr, Hw.
Qed.

End EventLoop.

(* ================================================================== *)
(** ** The body and the module on their own *)
(* ================================================================== *)

Lemma body_written : written test_scraper_timing = section6_text ++ nl ++ nl.
Proof. vm_compute. reflexivity. Qed.

Lemma body_awaits : awaits test_scraper_timing = 0.
Proof. reflexivity. Qed.

Lemma body_raises : raises test_scraper_timing = false.
Proof. reflexivity. Qed.

Lemma body_result (w : World) :
  fst (run_until_complete test_scraper_timing w) = Ok tt.
Proof.
  destruct (run_until_complete_ok test_scraper_timing body_raises w) as [[] H].
  exact H.
Qed.

Lemma script_as_main (file : string) (w : World) :
  running_loop w = false ->
  script "__main__" file w =
  (Ok tt,
   write_stdout (section6_text ++ nl ++ nl)
     (prepared w (os_path.join (os_path.dirname file) "backend"))).
Proof.
  intros Hloop. unfold script. cbn [bind Stmt_proc proc_bind import_ sys_path_insert].
  change (String.eqb "__main__" "__main__") with true. cbv iota.
  rewrite asyncio_run_fresh by exact Hloop.
  now rewrite body_result, body_written.
Qed.

Lemma main_from_boot (m : Machine) (inv : Invocation) :
  main inv (boot m inv) =
  (Ok tt,
   write_stdout (section6_text ++ nl ++ nl)
     (prepared (boot m inv) (backend_entry inv))).
Proof. unfold main. now rewrite script_as_main. Qed.

Lemma run_process_outcome (m : Machine) (inv : Invocation) :
  run_process m inv =
  ({| stdout := section6_text ++ nl ++ nl; exit_status := 0 |}, m).
Proof. unfold run_process. now rewrite main_from_boot. Qed.

(** The guard at the bottom of the module: imported under another name, the
    module extends the search path and prints nothing. *)
Lemma script_imported_prints_nothing (file : string) (w : World) :
  script "test_scraper_waits" file w =
  (Ok tt, prepared w (os_path.join (os_path.dirname file) "backend")).
Proof. reflexivity. Qed.

(** Executed as [__main__] from inside a running event loop, the script
    ends in the [RuntimeError] of [asyncio.run] and prints nothing: the
    exit status 0 below rests on the interpreter starting with no loop. *)
Lemma script_inside_running_loop (file : string) (w : World) :
  running_loop w = true ->
  observe (script "__main__" file w) =
  {| stdout := sys_stdout w; exit_status := 1 |}.
Proof.
  intros Hloop. unfold script, asyncio_run.
  cbn [bind Stmt_proc proc_bind import_ sys_path_insert].
  change (String.eqb "__main__" "__main__") with true. cbv iota.
  cbn [running_loop prepared set_sys_path bind_module]. rewrite Hloop.
  reflexivity.
Qed.

(* ================================================================== *)
(** ** Standard output *)
(* ================================================================== *)

(** C1: started with no arguments, whatever the script's path, the value of
    [__file__], the environment, the search path and the machine, the
    program writes to
    standard output the text block of section 6 followed by two line feeds;
    the two texts are equal once trailing line feeds are stripped, and the
    output's lines are the block's lines, in order, then the two empty
    pieces the final line feeds leave. *)
Theorem stdout_is_section6_text :
  forall (m : Machine) (path file : string) (env : list (string * string))
         (search : list string),
    let out :=
      stdout (fst (run_process m {| script_path := path; main_file := file;
                                    args := [];
                                    environ := env; search_path := search |}))
    in
    out = section6_text ++ nl ++ nl /\
    rstrip_nl out = rstrip_nl section6_text /\
    split_nl out = (section6_lines ++ [EmptyString; EmptyString])%list.
Proof.
  intros m path file env search out. subst out.
  rewrite run_process_outcome. cbn [fst stdout].
  repeat split; vm_compute; reflexivity.
Qed.

(** C8: the output has exactly two lines that hold a [=] sign, its third
    line and its twenty-second; each is 60 characters long and made of [=]
    signs only. *)
Theorem separators_are_60_equals_signs :
  forall (m : Machine) (inv : Invocation),
    let out := stdout (fst (run_process m inv)) in
    List.length (separator_lines out) = 2 /\
    separator_lines out = [nth 2 (split_nl out) EmptyString;
                           nth 21 (split_nl out) EmptyString] /\
    Forall (fun line => String.length line = 60 /\
                        all_equals_signs line = true)
           (separator_lines out).
Proof.
  intros m inv out. subst out. rewrite run_process_outcome. cbn [fst stdout].
  split; [reflexivity|]. split; [vm_compute; reflexivity|].
  assert (E : separator_lines (section6_text ++ nl ++ nl) =
              [str_repeat "=" 60; str_repeat "=" 60]) by (vm_compute; reflexivity).
  rewrite E. repeat constructor.
Qed.

(** C10: the figures read back from the printed lines agree with each
    other.  OLD: 1000 + 2 * 400 + 800 = 2600 ms, which is the printed 2.6 s;
    NEW: 2000 + 4 * 800 + 2000 = 7200 ms, which is the printed 7.2 s; in
    both blocks the printed scroll time is steps times step time; and
    7200 / 2600 rounded to one decimal place is the printed 2.8. *)
Theorem printed_figures_are_consistent :
  forall (m : Machine) (inv : Invocation),
    let out := stdout (fst (run_process m inv)) in
    exists (old new : Figures) (ratio : Z),
      strategy_figures "OLD Wait Strategy:" out = Some old /\
      strategy_figures "NEW Wait Strategy:" out = Some new /\
      printed_ratio out = Some ratio /\
      (itemized_ms old = 2600 /\ itemized_ms old = 100 * total_tenths old /\
       scroll_ms old = scroll_steps old * step_ms old)%Z /\
      (itemized_ms new = 7200 /\ itemized_ms new = 100 * total_tenths new /\
       scroll_ms new = scroll_steps new * step_ms new)%Z /\
      (ratio = 28 /\ ratio_tenths (itemized_ms new) (itemized_ms old) = ratio /\
       (10 * ratio - 5) * itemized_ms old <= 100 * itemized_ms new
         < (10 * ratio + 5) * itemized_ms old)%Z.
Proof.
  intros m inv out. subst out. rewrite run_process_outcome. cbn [fst stdout].
  eexists; eexists; eexists.
  split; [vm_compute; reflexivity|].
  split; [vm_compute; reflexivity|].
  split; [vm_compute; reflexivity|].
  unfold itemized_ms, ratio_tenths; cbn [initial_ms scroll_steps step_ms
    scroll_ms network_ms total_tenths].
  repeat split; try reflexivity; lia.
Qed.

(* ================================================================== *)
(** ** Exit status, failures, termination *)
(* ================================================================== *)

(** C3: every run ends, as [run_process] is a total function, and ends with
    exit status 0; the body has no suspension point, so nothing in it waits,
    and the task that wraps it is over after its first step. *)
Theorem always_exits_with_status_0 :
  forall (m : Machine) (inv : Invocation),
    exit_status (fst (run_process m inv)) = 0%Z /\
    awaits test_scraper_timing = 0 /\
    send test_scraper_timing (boot m inv) =
      (Finished (Ok tt),
       write_stdout (written test_scraper_timing) (boot m inv)).
Proof.
  intros m inv. rewrite run_process_outcome. split; [reflexivity|].
  split; [exact body_awaits|].
  rewrite (send_without_await _ body_awaits), body_result.
  now rewrite run_until_complete_world.
Qed.

(** C6: the reporting body holds no [raise]; in every world it runs to its
    end and returns normally, touching nothing but standard output; and the
    program as a whole ends without an exception. *)
Theorem reporting_body_cannot_fail :
  raises test_scraper_timing = false /\
  (forall w : World,
     run_until_complete test_scraper_timing w =
     (Ok tt, write_stdout (written test_scraper_timing) w)) /\
  (forall (m : Machine) (inv : Invocation),
     fst (main inv (boot m inv)) = Ok tt).
Proof.
  split; [exact body_raises|]. split.
  - intros w. rewrite (surjective_pairing (run_until_complete _ w)).
    now rewrite body_result, run_until_complete_world.
  - intros m inv. now rewrite main_from_boot.
Qed.

(* ================================================================== *)
(** ** What a run leaves behind *)
(* ================================================================== *)

(** C2, as stated, fails: at the end of this run, started on the relative
    path [test-scraper-waits.py] with [__file__] made absolute, the module
    search path starts with ["/srv/deal-finder/backend"], which was not
    there when the process started. *)
Lemma search_path_is_mutated :
  sys_path (final_world example_machine example_invocation) =
    ["/srv/deal-finder/backend"; "/srv/deal-finder"; "/usr/lib/python3.11"] /\
  ~ only_stdout_written (boot example_machine example_invocation)
                        (final_world example_machine example_invocation).
Proof.
  split; [vm_compute; reflexivity|].
  intros [_ [_ [_ [Hpath _]]]].
  vm_compute in Hpath. discriminate Hpath.
Qed.

(** C2, amended: a run writes to standard output, binds the three modules
    it imports and puts the backend entry, computed from the module's own
    [__file__] (not from [sys.argv[0]]), at the front of the module search
    path; the files, the network, the arguments, the environment and the
    event-loop state are at the end what they were at the start. *)
Theorem effects_are_stdout_and_search_path :
  forall (m : Machine) (inv : Invocation),
    let w := boot m inv in
    let w' := final_world m inv in
    host w' = host w /\
    snd (run_process m inv) = m /\
    sys_argv w' = sys_argv w /\
    os_environ w' = os_environ w /\
    running_loop w' = running_loop w /\
    sys_path w' =
      os_path.join (os_path.dirname (main_file inv)) "backend" :: sys_path w /\
    map fst (imported w') = ["asyncio"; "sys"; "os"] /\
    sys_stdout w' = section6_text ++ nl ++ nl.
Proof.
  intros m inv w w'. subst w w'. unfold final_world.
  rewrite run_process_outcome, main_from_boot. cbn [snd].
  repeat split.
Qed.

(** C5: two runs in a row on one machine give the same output and the same
    exit status, and a run hands the machine on as it found it. *)
Theorem successive_runs_agree :
  forall (m : Machine) (inv : Invocation),
    fst (run_twice m inv inv) = snd (run_twice m inv inv) /\
    stdout (fst (run_twice m inv inv)) = stdout (snd (run_twice m inv inv)) /\
    snd (run_process m inv) = m.
Proof.
  intros m inv. unfold run_twice.
  rewrite run_process_outcome, run_process_outcome. cbn [fst snd].
  repeat split.
Qed.

(** C4: the run with no arguments and a run of the same script with any
    extra arguments and any environment write the same standard output; so
    does, in particular, the run with the arguments [--foo bar]. *)
Theorem stdout_ignores_arguments_and_environment :
  forall (m : Machine) (path file : string) (search : list string)
         (env env' : list (string * string)) (extra : list string),
    stdout (fst (run_process m {| script_path := path; main_file := file;
                                  args := [];
                                  environ := env; search_path := search |})) =
    stdout (fst (run_process m {| script_path := path; main_file := file;
                                  args := extra;
                                  environ := env'; search_path := search |})) /\
    stdout (fst (run_process m {| script_path := path; main_file := file;
                                  args := [];
                                  environ := env; search_path := search |})) =
    stdout (fst (run_process m {| script_path := path; main_file := file;
                                  args := ["--foo"; "bar"];
                                  environ := env; search_path := search |})).
Proof.
  intros m path file search env env' extra.
  now rewrite !run_process_outcome.
Qed.

(* ================================================================== *)
(** ** Variants of the script *)
(* ================================================================== *)

(** The synchronous body does in every world what the loop does with the
    coroutine. *)
Lemma sync_body_runs_like_coroutine (w : World) :
  test_scraper_timing_sync w = run_until_complete test_scraper_timing w.
Proof. reflexivity. Qed.

(** C7: the body has no suspension point, its task is over after one step,
    and the program with the asynchronous wrapper omitted gives the same
    standard output and exit status (and leaves the same world) as the
    program that goes through [asyncio.run]. *)
Theorem async_wrapper_is_a_noop :
  awaits test_scraper_timing = 0 /\
  (forall w : World,
     send test_scraper_timing w =
     (Finished (fst (test_scraper_timing_sync w)),
      snd (test_scraper_timing_sync w))) /\
  (forall (m : Machine) (inv : Invocation),
     observe (main inv (boot m inv)) = observe (main_sync inv (boot m inv)) /\
     main inv (boot m inv) = main_sync inv (boot m inv)).
Proof.
  split; [exact body_awaits|]. split.
  - intros w. rewrite sync_body_runs_like_coroutine.
    apply send_without_await, body_awaits.
  - intros m inv.
    assert (E : main inv (boot m inv) = main_sync inv (boot m inv)).
    { rewrite main_from_boot. unfold main_sync, script_sync.
      cbn [bind Stmt_proc proc_bind import_ sys_path_insert].
      change (String.eqb "__main__" "__main__") with true. cbv iota.
      rewrite sync_body_runs_like_coroutine.
      rewrite (surjective_pairing (run_until_complete _ _)).
      now rewrite body_result, run_until_complete_world, body_written. }
    now rewrite E.
Qed.

(** C9: every import of the script runs before the backend entry is put on
    the search path, so each one sees the search path the interpreter
    started with; what follows the insertion behaves the same whatever the
    search path holds; and the script without the path manipulation gives
    the same standard output and exit status, with the same imports. *)
Theorem backend_path_is_dead_code :
  forall (m : Machine) (inv : Invocation),
    imported (final_world m inv) =
      [("asyncio", search_path inv); ("sys", search_path inv);
       ("os", search_path inv)] /\
    (forall (p : list string) (w : World),
       observe (after_path_insert "__main__" (set_sys_path p w)) =
       observe (after_path_insert "__main__" w)) /\
    observe (main inv (boot m inv)) =
      observe (main_without_backend inv (boot m inv)) /\
    imported (snd (main_without_backend inv (boot m inv))) =
      imported (final_world m inv).
Proof.
  intros m inv.
  assert (E : main_without_backend inv (boot m inv) =
              (Ok tt, write_stdout (section6_text ++ nl ++ nl)
                        (bind_module "os" (bind_module "sys"
                           (bind_module "asyncio" (boot m inv)))))).
  { unfold main_without_backend, script_without_backend.
    cbn [bind Stmt_proc proc_bind import_].
    change (String.eqb "__main__" "__main__") with true. cbv iota.
    rewrite asyncio_run_fresh by reflexivity.
    now rewrite body_result, body_written. }
  unfold final_world. rewrite main_from_boot, E. cbn [snd].
  split; [reflexivity|]. split; [|split; reflexivity].
  intros p w. unfold after_path_insert.
  change (String.eqb "__main__" "__main__") with true. cbv iota.
  apply asyncio_run_ignores_sys_path.
Qed.

(* ================================================================== *)
(** ** The module under other conditions *)
(* ================================================================== *)

(** X1: executed under any name other than [__main__] (imported as a
    module), the script prints nothing and raises nothing, whether or not an
    event loop is running, and still puts the backend entry at the front of
    the module search path. *)
Theorem import_guard_skips_the_report :
  forall (name file : string) (w : World),
    String.eqb name "__main__" = false ->
    fst (script name file w) = Ok tt /\
    sys_stdout (snd (script name file w)) = sys_stdout w /\
    sys_path (snd (script name file w)) = backend_dir file :: sys_path w /\
    running_loop (snd (script name file w)) = running_loop w /\
    host (snd (script name file w)) = host w.
Proof.
  intros name file w Hname. unfold script.
  cbn [bind Stmt_proc proc_bind import_ sys_path_insert].
  rewrite Hname. repeat split.
Qed.

Lemma import_guard_skips_the_report_witness :
  String.eqb "test_scraper_waits" "__main__" = false /\
  sys_stdout (snd (script "test_scraper_waits" "/srv/deal-finder/test-scraper-waits.py"
                     (boot example_machine example_invocation))) =
  sys_stdout (boot example_machine example_invocation).
Proof.
  split; [reflexivity|].
  apply (import_guard_skips_the_report "test_scraper_waits"
           "/srv/deal-finder/test-scraper-waits.py"
           (boot example_machine example_invocation)).
  reflexivity.
Defined.

(** X2: executed as [__main__] while an event loop is already running, the
    script ends in the [RuntimeError] of [asyncio.run] (exit status 1) with
    nothing printed; the search path has been extended all the same, since
    line 11 runs before line 44. *)
Theorem running_loop_aborts_after_path_insert :
  forall (file : string) (w : World),
    running_loop w = true ->
    (exists msg, fst (script "__main__" file w) = Raised (RuntimeError msg)) /\
    exit_code (fst (script "__main__" file w)) = 1%Z /\
    sys_stdout (snd (script "__main__" file w)) = sys_stdout w /\
    sys_path (snd (script "__main__" file w)) = backend_dir file :: sys_path w.
Proof.
  intros file w Hloop. unfold script, asyncio_run.
  cbn [bind Stmt_proc proc_bind import_ sys_path_insert].
  change (String.eqb "__main__" "__main__") with true. cbv iota.
  cbn [running_loop set_sys_path bind_module]. rewrite Hloop.
  cbn [fst snd]. split; [eexists; reflexivity|]. repeat split.
Qed.

Lemma running_loop_aborts_after_path_insert_witness :
  running_loop (set_running_loop true (boot example_machine example_invocation))
    = true /\
  exit_code (fst (script "__main__" "/srv/deal-finder/test-scraper-waits.py"
                    (set_running_loop true
                       (boot example_machine example_invocation)))) = 1%Z.
Proof.
  split; [reflexivity|].
  apply (running_loop_aborts_after_path_insert
           "/srv/deal-finder/test-scraper-waits.py"
           (set_running_loop true (boot example_machine example_invocation))).
  reflexivity.
Defined.

Lemma repeat_shift {A : Type} (x : A) (n : nat) (l : list A) :
  (repeat x n ++ x :: l = x :: repeat x n ++ l)%list.
Proof.
  induction n as [|n IH]; simpl; [reflexivity | now rewrite IH].
Qed.

(** X3: the module body has no guard against being executed again: run [n]
    times as [__main__] in one interpreter with no loop running, it prints
    the report [n] times, puts [n] copies of the backend entry in front of
    the search path, and ends each time with no loop running. *)
Theorem rerun_piles_up_entries :
  forall (n : nat) (file : string) (w : World),
    running_loop w = false ->
    fst (rerun n (script "__main__" file) w) = Ok tt /\
    sys_stdout (snd (rerun n (script "__main__" file) w)) =
      sys_stdout w ++ str_repeat (section6_text ++ nl ++ nl) n /\
    sys_path (snd (rerun n (script "__main__" file) w)) =
      (repeat (backend_dir file) n ++ sys_path w)%list /\
    running_loop (snd (rerun n (script "__main__" file) w)) = false.
Proof.
  induction n as [|n IH]; intros file w Hloop.
  - cbn [rerun ret Stmt_proc fst snd str_repeat repeat app].
    repeat split; try assumption.
    now rewrite <- (write_stdout_nothing w) at 1.
  - cbn [rerun bind Stmt_proc]. unfold proc_bind.
    rewrite (script_as_main file w Hloop).
    set (w1 := write_stdout _ _).
    assert (Hloop1 : running_loop w1 = false) by exact Hloop.
    destruct (IH file w1 Hloop1) as (Hr & Hout & Hpath & Hrl).
    repeat split; try assumption.
    + rewrite Hout. subst w1. cbn [sys_stdout write_stdout prepared
        set_sys_path bind_module str_repeat].
      apply append_associative.
    + rewrite Hpath. subst w1. cbn [sys_path write_stdout prepared
        set_sys_path bind_module list_insert firstn skipn app repeat].
      apply repeat_shift.
Qed.

Lemma rerun_piles_up_entries_witness :
  running_loop (boot example_machine example_invocation) = false /\
  sys_path (snd (rerun 2 (script "__main__" "/srv/deal-finder/test-scraper-waits.py")
                   (boot example_machine example_invocation))) =
  (repeat (backend_dir "/srv/deal-finder/test-scraper-waits.py") 2
     ++ sys_path (boot example_machine example_invocation))%list.
Proof.
  split; [reflexivity|].
  apply (rerun_piles_up_entries 2 "/srv/deal-finder/test-scraper-waits.py"
           (boot example_machine example_invocation)).
  reflexivity.
Defined.

(* ================================================================== *)
(** ** The entry put on the search path *)
(* ================================================================== *)

Lemma list_ascii_of_append (s t : string) :
  list_ascii_of_string (s ++ t) =
  (list_ascii_of_string s ++ list_ascii_of_string t)%list.
Proof.
  induction s as [|c s IH]; simpl; [reflexivity | now rewrite IH].
Qed.

Lemma existsb_reversed {A : Type} (f : A -> bool) (l : list A) :
  existsb f (rev l) = existsb f l.
Proof.
  induction l as [|x l IH]; simpl; [reflexivity|].
  rewrite existsb_app, IH. simpl. rewrite orb_false_r. apply orb_comm.
Qed.

Lemma upto_last_sep_none (r : list ascii) :
  existsb (fun c => Ascii.eqb c os_path.sep) r = false ->
  os_path.upto_last_sep r = [].
Proof.
  induction r as [|c r IH]; simpl; [reflexivity|].
  intros H. apply orb_false_iff in H as [Hc Hr]. rewrite Hc. now apply IH.
Qed.

Lemma upto_last_sep_found (r t : list ascii) :
  existsb (fun c => Ascii.eqb c os_path.sep) r = false ->
  os_path.upto_last_sep (r ++ os_path.sep :: t) = os_path.sep :: t.
Proof.
  induction r as [|c r IH]; simpl.
  - intros _. reflexivity.
  - intros H. apply orb_false_iff in H as [Hc Hr]. rewrite Hc. now apply IH.
Qed.

(** The head that [dirname] keeps, on the reversed path, ends where the
    reversed path ends, when it is not empty. *)
Lemma upto_last_sep_keeps_end (r : list ascii) (c : ascii) :
  os_path.upto_last_sep (r ++ [c]) = [] \/
  exists h, os_path.upto_last_sep (r ++ [c]) = (h ++ [c])%list.
Proof.
  induction r as [|x r IH]; simpl.
  - destruct (Ascii.eqb c os_path.sep); [right; now exists [] | now left].
  - destruct (Ascii.eqb x os_path.sep); [right; now exists (x :: r) | exact IH].
Qed.

Lemma upto_last_sep_of_root (r : list ascii) :
  os_path.upto_last_sep (r ++ [os_path.sep]) <> [].
Proof.
  induction r as [|x r IH]; simpl.
  - discriminate.
  - destruct (Ascii.eqb x os_path.sep); [discriminate | exact IH].
Qed.

Lemma rstrip_sep_keeps_end (h : list ascii) (c : ascii) :
  os_path.rstrip_sep (h ++ [c]) = [] \/
  exists h', os_path.rstrip_sep (h ++ [c]) = (h' ++ [c])%list.
Proof.
  induction h as [|x h IH]; simpl.
  - destruct (Ascii.eqb c os_path.sep); [now left | right; now exists []].
  - destruct (Ascii.eqb x os_path.sep); [exact IH | right; now exists (x :: h)].
Qed.

Lemma rstrip_sep_empty (h : list ascii) :
  os_path.rstrip_sep h = [] -> forallb (Ascii.eqb os_path.sep) h = true.
Proof.
  induction h as [|x h IH]; cbn [os_path.rstrip_sep forallb]; [reflexivity|].
  rewrite (Ascii.eqb_sym os_path.sep x).
  destruct (Ascii.eqb x os_path.sep); [exact IH | discriminate].
Qed.

(** The reversed head [dirname] ends up with is empty or ends with the
    path's first character. *)
Lemma dirname_first_char (c : ascii) (rest : string) :
  os_path.dirname (String c rest) = EmptyString \/
  exists d, os_path.dirname (String c rest) = String c d.
Proof.
  unfold os_path.dirname. cbn [list_ascii_of_string rev].
  set (r := rev (list_ascii_of_string rest)).
  destruct (upto_last_sep_keeps_end r c) as [E | [h E]]; rewrite E.
  - left. reflexivity.
  - destruct (forallb (Ascii.eqb os_path.sep) (h ++ [c])).
    + right. rewrite rev_app_distr. simpl. eauto.
    + destruct (rstrip_sep_keeps_end h c) as [E' | [h' E']]; rewrite E'.
      * left. reflexivity.
      * right. rewrite rev_app_distr. simpl. eauto.
Qed.

Lemma dirname_of_absolute (rest : string) :
  exists d, os_path.dirname (String os_path.sep rest) = String os_path.sep d.
Proof.
  destruct (dirname_first_char os_path.sep rest) as [E | H]; [|exact H].
  exfalso. revert E. unfold os_path.dirname. cbn [list_ascii_of_string rev].
  set (r := rev (list_ascii_of_string rest)).
  pose proof (upto_last_sep_of_root r) as Hne.
  destruct (forallb (Ascii.eqb os_path.sep)
              (os_path.upto_last_sep (r ++ [os_path.sep]))) eqn:Hall.
  - destruct (os_path.upto_last_sep (r ++ [os_path.sep])) as [|x l];
      [congruence|].
    simpl. destruct (rev l ++ [x])%list eqn:El; [|discriminate].
    now apply app_eq_nil in El as [_ El].
  - destruct (os_path.rstrip_sep (os_path.upto_last_sep (r ++ [os_path.sep])))
      as [|x l] eqn:Es.
    + apply rstrip_sep_empty in Es. congruence.
    + simpl. destruct (rev l ++ [x])%list eqn:El; [|discriminate].
      now apply app_eq_nil in El as [_ El].
Qed.

(** X4: for a script given by a bare file name (no [/] in [__file__]) the
    entry put on the search path is the relative name [backend]. *)
Theorem bare_file_name_gives_relative_backend :
  forall file : string,
    has_sep file = false ->
    os_path.dirname file = EmptyString /\ backend_dir file = "backend".
Proof.
  intros file H. unfold has_sep in H.
  assert (E : os_path.dirname file = EmptyString).
  { unfold os_path.dirname. rewrite upto_last_sep_none; [reflexivity|].
    now rewrite existsb_reversed. }
  split; [exact E|]. unfold backend_dir. now rewrite E.
Qed.

Lemma bare_file_name_gives_relative_backend_witness :
  has_sep "test-scraper-waits.py" = false /\
  backend_dir "test-scraper-waits.py" = "backend".
Proof.
  split; [reflexivity|].
  apply (bare_file_name_gives_relative_backend "test-scraper-waits.py").
  reflexivity.
Defined.

(** X5: for a script [dir/name], where [dir] is not empty and does not end
    with [/] and [name] holds no [/], the entry put on the search path is
    [dir/backend]: the directory right beside the script. *)
Theorem backend_is_beside_the_script :
  forall dir name : string,
    dir <> EmptyString ->
    os_path.endswith_sep dir = false ->
    has_sep name = false ->
    os_path.dirname (dir ++ String os_path.sep name) = dir /\
    backend_dir (dir ++ String os_path.sep name) = dir ++ "/backend".
Proof.
  intros dir name Hne Hend Hname.
  assert (E : os_path.dirname (dir ++ String os_path.sep name) = dir).
  { unfold os_path.dirname.
    rewrite list_ascii_of_append. cbn [list_ascii_of_string].
    rewrite rev_app_distr. cbn [rev]. rewrite <- app_assoc. cbn [app].
    rewrite upto_last_sep_found
      by (unfold has_sep in Hname; now rewrite existsb_reversed).
    unfold os_path.endswith_sep in Hend.
    destruct (rev (list_ascii_of_string dir)) as [|c t] eqn:Er.
    - exfalso. apply Hne.
      rewrite <- (string_of_list_ascii_of_string dir),
        <- (rev_involutive (list_ascii_of_string dir)), Er. reflexivity.
    - cbn [forallb os_path.rstrip_sep]. rewrite Ascii.eqb_refl.
      rewrite (Ascii.eqb_sym os_path.sep c), Hend. cbn [andb].
      rewrite <- Er, rev_involutive. apply string_of_list_ascii_of_string. }
  split; [exact E|]. unfold backend_dir. rewrite E. unfold os_path.join.
  cbn [os_path.startswith_sep]. rewrite Hend.
  apply String.eqb_neq in Hne. rewrite Hne. reflexivity.
Qed.

Lemma backend_is_beside_the_script_witness :
  "/srv/deal-finder" <> EmptyString /\
  backend_dir ("/srv/deal-finder" ++ String os_path.sep "test-scraper-waits.py")
    = "/srv/deal-finder" ++ "/backend".
Proof.
  split; [discriminate|].
  apply (backend_is_beside_the_script "/srv/deal-finder" "test-scraper-waits.py");
    [discriminate | reflexivity | reflexivity].
Defined.

(** X6: the entry put on the search path is an absolute path exactly when
    [__file__] is one; it is never empty. *)
Theorem backend_is_absolute_iff_file_is :
  forall file : string,
    os_path.startswith_sep (backend_dir file) = os_path.startswith_sep file /\
    backend_dir file <> EmptyString.
Proof.
  intros file. unfold backend_dir, os_path.join.
  cbn [os_path.startswith_sep Ascii.eqb Bool.eqb andb].
  destruct file as [|c rest].
  - split; [reflexivity | discriminate].
  - destruct (dirname_first_char c rest) as [E | [d E]].
    + destruct (Ascii.eqb_spec c os_path.sep) as [-> | Hc].
      * destruct (dirname_of_absolute rest) as [d E']. congruence.
      * rewrite E. cbn. apply Ascii.eqb_neq in Hc. rewrite Hc.
        split; [reflexivity | discriminate].
    + rewrite E. cbn [String.eqb orb].
      destruct (os_path.endswith_sep (String c d));
        cbn [append os_path.startswith_sep]; split;
        solve [reflexivity | discriminate].
Qed.

(* ================================================================== *)
(** ** The shape of the report *)
(* ================================================================== *)

(** X7: whatever the invocation, the report is 7-bit ASCII throughout, it
    ends with a line feed, and its widest lines are the two rules of [=]
    signs: no line is longer than 60 characters. *)
Theorem report_is_ascii_within_the_rule :
  forall (m : Machine) (inv : Invocation),
    is_ascii (stdout (fst (run_process m inv))) = true /\
    widest_line (stdout (fst (run_process m inv))) = 60 /\
    filter (fun line => Nat.eqb (String.length line) 60)
           (split_nl (stdout (fst (run_process m inv)))) =
      separator_lines (stdout (fst (run_process m inv))) /\
    Forall (fun line => String.length line <= 60)
           (split_nl (stdout (fst (run_process m inv)))) /\
    (exists body, stdout (fst (run_process m inv)) = body ++ nl).
Proof.
  intros m inv. rewrite run_process_outcome. cbn [fst stdout].
  split; [vm_compute; reflexivity|].
  split; [vm_compute; reflexivity|].
  split; [vm_compute; reflexivity|].
  split;
    [|exists (section6_text ++ nl); symmetry; apply append_associative].
  apply Forall_forall. intros line Hin.
  assert (H : forallb (fun l => Nat.leb (String.length l) 60)
                (split_nl (section6_text ++ nl ++ nl)) = true)
    by (vm_compute; reflexivity).
  rewrite forallb_forall in H. apply Nat.leb_le. now apply H.
Qed.
